(** * Block-dvpn backend: the two gateway handlers of [backend/app.py]

    A shallow embedding of [verify_subscription] and [get_node_details]
    together with the outcomes of the collaborators they call
    ([request.get_json], [w3.eth.contract], the contract's
    [hasActiveSubscription] view and the sqlite3 connection), followed by
    the properties of the handlers. *)

From Stdlib Require Import ZArith Ascii String List Floats.SpecFloat.
From stdpp Require Import base option gmap strings list fin_maps.
Import ListNotations.

Local Open Scope string_scope.
Set Warnings "-register-all".

(** ** Values exchanged with the HTTP boundary *)

(** The Python values that [request.get_json()] can hand to the handler and
    that [jsonify] serialises: [None], [bool], [int], [float], [str], [list]
    and [dict] with string keys. *)
Inductive json : Type :=
  | JNull
  | JBool (b : bool)
  | JInt (z : Z)
  | JFloat (f : spec_float)
  | JStr (s : string)
  | JArr (l : list json)
  | JObj (m : gmap string json).

(** Python truth value testing, as used by [if not eth_address] and
    [if is_subscribed]. *)
Definition truthy (v : json) : bool :=
  match v with
  | JNull => false
  | JBool b => b
  | JInt z => negb (z =? 0)%Z
  | JFloat (S754_zero _) => false
  | JFloat _ => true
  | JStr s => negb (String.eqb s "")
  | JArr l => match l with [] => false | _ :: _ => true end
  | JObj m => negb (Nat.eqb (size m) 0)
  end.

(** [type(v).__name__], which appears in the text of an [AttributeError]. *)
Definition type_name (v : json) : string :=
  match v with
  | JNull => "NoneType"
  | JBool _ => "bool"
  | JInt _ => "int"
  | JFloat _ => "float"
  | JStr _ => "str"
  | JArr _ => "list"
  | JObj _ => "dict"
  end.

(** A caught exception, represented by [str(e)]: the handlers use nothing
    else of it. *)
Inductive exn : Type := Exception (msg : string).

Definition str (e : exn) : string := let 'Exception m := e in m.

(** What a Flask view returns: a status code and a JSON body. A bare
    [jsonify(...)] carries status 200. *)
Record Response : Type := mkResponse { status_code : Z; body : json }.

Definition jsonify (v : json) : Response := mkResponse 200 v.
Definition with_status (r : Response) (code : Z) : Response :=
  mkResponse code (body r).

(** ** Effects: failure and the observable world *)

(** What the handlers leave behind besides their response: the number of
    sqlite3 connections that are open, and the entitlement calls that went
    out, each with the argument it carried and its outcome. *)
Record World : Type := mkWorld {
  live_connections : nat;
  entitlement_calls : list (json * (exn + bool))
}.

Definition initial_world : World := mkWorld 0 [].

(** A computation either raises or returns, and in both cases leaves a
    world: what was opened before an exception stays open. *)
Definition M (A : Type) : Type := World -> (exn + A) * World.

Definition ret {A} (a : A) : M A := fun w => (inr a, w).
Definition raise {A} (e : exn) : M A := fun w => (inl e, w).
Definition bind {A B} (m : M A) (k : A -> M B) : M B :=
  fun w => match m w with
           | (inl e, w') => (inl e, w')
           | (inr a, w') => k a w'
           end.

(** [try: body except Exception as e: handler e]. *)
Definition try_except {A} (body : M A) (handler : exn -> M A) : M A :=
  fun w => match body w with
           | (inl e, w') => handler e w'
           | (inr a, w') => (inr a, w')
           end.

(** The outcome of a call that touches nothing of the world. *)
Definition lift {A} (r : exn + A) : M A := fun w => (r, w).

#[global] Instance M_ret : MRet M := @ret.
#[global] Instance M_bind : MBind M := fun A B k m => bind m k.

(** ** POST /verify-subscription *)

Module Subscription.

(** The collaborators of [verify_subscription]: the outcome of
    [request.get_json()], of [w3.eth.contract(address=CONTRACT_ADDRESS,
    abi=SUBSCRIPTION_ABI)] and of
    [contract.functions.hasActiveSubscription(arg).call()] for each
    argument. *)
Record Request : Type := mkRequest { get_json : exn + json }.

Record Web3 : Type := mkWeb3 {
  eth_contract : exn + unit;
  hasActiveSubscription : json -> exn + bool
}.

(** [data.get(key)]: [dict.get] gives [None] for an absent key; every other
    JSON value has no attribute [get]. *)
Definition data_get (data : json) (key : string) : exn + json :=
  match data with
  | JObj m => inr (default JNull (m !! key))
  | v => inl (Exception ("'" ++ type_name v ++ "' object has no attribute 'get'"))
  end.

(** The remote view call, recorded in the world with its argument. *)
Definition call_hasActiveSubscription (w3 : Web3) (arg : json) : M bool :=
  fun w =>
    let r := hasActiveSubscription w3 arg in
    (r, mkWorld (live_connections w) (entitlement_calls w ++ [(arg, r)])).

Definition error_body (msg : string) : json :=
  JObj {[ "error" := JStr msg ]}.

Definition verify_subscription (w3 : Web3) (request : Request) : M Response :=
  try_except
    (data ← lift (get_json request);
     eth_address ← lift (data_get data "eth_address");
     if negb (truthy eth_address) then
       mret (with_status (jsonify (error_body "eth_address is required")) 400)
     else
       _ ← lift (eth_contract w3);
       is_subscribed ← call_hasActiveSubscription w3 eth_address;
       if (is_subscribed : bool) then
         mret (with_status (jsonify (JObj {[ "status" := JStr "active" ]})) 200)
       else
         mret (with_status (jsonify (error_body "No active subscription")) 401))
    (fun e => mret (with_status (jsonify (error_body (str e))) 500)).

End Subscription.

(** ** GET /api/nodes/<address> *)

Module Nodes.

(** SQLite's built-in [LOWER]: it folds the ASCII letters [A]..[Z] and
    leaves every other byte alone. *)
Definition lower_ascii (c : ascii) : ascii :=
  let n := N_of_ascii c in
  if ((65 <=? n) && (n <=? 90))%N then ascii_of_N (n + 32) else c.

Fixpoint LOWER (s : string) : string :=
  match s with
  | EmptyString => EmptyString
  | String c s' => String (lower_ascii c) (LOWER s')
  end.

(** Modelled from the spec: the schema of the [pending_nodes] table, which
    is created outside this repository's sources. The spec gives a record
    as the tuple (address, friendly_name, country, status) of text
    columns, compared with SQLite's default (binary) collation. *)
Record Row : Type := mkRow {
  address : string;
  friendly_name : string;
  country : string;
  status : string
}.

(** The database file as one request finds it: the rows of
    [pending_nodes] in the order a scan yields them, and for each of the
    three sqlite3 operations of the handler whether it raises. *)
Record Store : Type := mkStore {
  connect_fault : option exn;
  execute_fault : option exn;
  fetchone_fault : option exn;
  pending_nodes : list Row
}.

Definition healthy (rows : list Row) : Store := mkStore None None None rows.

(** [WHERE LOWER(address) = LOWER(?) AND status = 'approved']. *)
Definition where_clause (param : string) (r : Row) : bool :=
  String.eqb (LOWER (address r)) (LOWER param) && String.eqb (status r) "approved".

(** [SELECT friendly_name, country]. *)
Definition select_columns (r : Row) : string * string :=
  (friendly_name r, country r).

Definition sqlite3_connect (db : Store) : M unit :=
  fun w =>
    match connect_fault db with
    | Some e => (inl e, w)
    | None => (inr tt, mkWorld (S (live_connections w)) (entitlement_calls w))
    end.

Definition cursor_execute (db : Store) (param : string) : M (list (string * string)) :=
  match execute_fault db with
  | Some e => raise e
  | None => ret (List.map select_columns (List.filter (where_clause param) (pending_nodes db)))
  end.

Definition cursor_fetchone (db : Store) (pending : list (string * string))
  : M (option (string * string)) :=
  match fetchone_fault db with
  | Some e => raise e
  | None => ret (hd_error pending)
  end.

Definition conn_close : M unit :=
  fun w => (inr tt, mkWorld (pred (live_connections w)) (entitlement_calls w)).

Definition details_body (name ctry : string) : json :=
  JObj {[ "friendly_name" := JStr name; "country" := JStr ctry ]}.

Definition placeholder : json := details_body "Hold on there" "Hold on there".

(** The debug [print] calls of the handler write to standard output only
    and are left out. *)
Definition get_node_details (db : Store) (address : string) : M Response :=
  try_except
    (_ ← sqlite3_connect db;
     rows ← cursor_execute db address;
     result ← cursor_fetchone db rows;
     _ ← conn_close;
     match result with
     | Some (name, ctry) => mret (jsonify (details_body name ctry))
     | None => mret (jsonify placeholder)
     end)
    (fun e => mret (jsonify placeholder)).

(** A record matches a request address when the two agree up to the
    casing of ASCII letters and the record's status is exactly
    'approved'. *)
Definition matches (param : string) (r : Row) : Prop :=
  LOWER (address r) = LOWER param ∧ status r = "approved".

(** What the query and [fetchone] hand back on a store whose operations
    succeed: the projection of the first matching row. *)
Definition first_match (param : string) (rows : list Row) : option (string * string) :=
  hd_error (List.map select_columns (List.filter (where_clause param) rows)).

End Nodes.

(** Modelled from the spec: the Address Normalizer, which the source does
    not contain. The spec describes its output as "a case-folded canonical
    form"; letters are folded to lower case. *)
Definition Normalize (raw : string) : string := Nodes.LOWER raw.

(** ** The schema-inspection script [show_db.py] *)

Module ShowDb.

(** The exceptions of the sqlite3 calls as the script tells them apart:
    its inner handler catches [sqlite3.OperationalError] only, its outer
    handler every [Exception]. Both carry [str(e)]. *)
Inductive db_error : Type :=
  | OperationalError (msg : string)
  | OtherError (msg : string).

Definition describe (e : db_error) : string :=
  match e with OperationalError m | OtherError m => m end.

(** What a run of the script leaves behind: the world of connections and
    the text of each [print] call, in order. *)
Record Console : Type := mkConsole { world : World; stdout : list string }.

Definition Script (A : Type) : Type := Console -> (db_error + A) * Console.

#[global] Instance Script_ret : MRet Script := fun A a c => (inr a, c).
#[global] Instance Script_bind : MBind Script :=
  fun A B k m c => match m c with
                   | (inl e, c') => (inl e, c')
                   | (inr a, c') => k a c'
                   end.

Definition fail {A} (e : db_error) : Script A := fun c => (inl e, c).

(** [except Exception as e]. *)
Definition except_exception {A} (body : Script A) (handler : db_error -> Script A)
  : Script A :=
  fun c => match body c with
           | (inl e, c') => handler e c'
           | (inr a, c') => (inr a, c')
           end.

(** [except sqlite3.OperationalError as e]: any other exception goes on. *)
Definition except_operational {A} (body : Script A) (handler : string -> Script A)
  : Script A :=
  fun c => match body c with
           | (inl (OperationalError msg), c') => handler msg c'
           | (inl (OtherError msg), c') => (inl (OtherError msg), c')
           | (inr a, c') => (inr a, c')
           end.

Definition print (line : string) : Script unit :=
  fun c => (inr tt, mkConsole (world c) (stdout c ++ [line])).

(** [for x in l: body]. *)
Fixpoint for_each {A} (l : list A) (body : A -> Script unit) : Script unit :=
  match l with
  | [] => mret tt
  | x :: l' => _ ← body x; for_each l' body
  end.

(** The database file as one run of the script finds it, call by call:
    whether [connect] raises, whether the query on [sqlite_master] raises
    and what its [fetchone] gives (no row, or the row holding the text of
    the CREATE TABLE statement), whether [SELECT * FROM pending_nodes]
    raises and what its [fetchall] gives. A row is whatever tuple the
    table holds. *)
Record Database (R : Type) : Type := mkDatabase {
  connect_outcome : option db_error;
  schema_execute : option db_error;
  schema_fetchone : db_error + option string;
  select_execute : option db_error;
  select_fetchall : db_error + list R
}.
Arguments mkDatabase {R}.
Arguments connect_outcome {R}.
Arguments schema_execute {R}.
Arguments schema_fetchone {R}.
Arguments select_execute {R}.
Arguments select_fetchall {R}.

Definition may_raise (o : option db_error) : Script unit :=
  match o with Some e => fail e | None => mret tt end.

Definition outcome {A} (r : db_error + A) : Script A := fun c => (r, c).

Definition connect {R} (db : Database R) : Script unit :=
  fun c =>
    match connect_outcome db with
    | Some e => (inl e, c)
    | None =>
        (inr tt,
         mkConsole (mkWorld (S (live_connections (world c)))
                      (entitlement_calls (world c)))
           (stdout c))
    end.

Definition close : Script unit :=
  fun c =>
    (inr tt,
     mkConsole (mkWorld (pred (live_connections (world c)))
                  (entitlement_calls (world c)))
       (stdout c)).

Definition contents_heading : string :=
  String "010"%char "Contents of pending_nodes table:".

(** [repr] is the text Python's formatting gives for a row tuple in
    [f"Row data: {row}"]. *)
Definition show_table_contents {R} (repr : R -> string) (db : Database R)
  : Script unit :=
  except_exception
    (_ ← connect db;
     _ ← may_raise (schema_execute db);
     schema ← outcome (schema_fetchone db);
     _ ← print "Table Schema:";
     _ ← print (match schema with Some sql => sql | None => "No schema found" end);
     _ ← except_operational
           (_ ← may_raise (select_execute db);
            rows ← outcome (select_fetchall db);
            _ ← print contents_heading;
            match rows with
            | _ :: _ => for_each rows (fun row => print ("Row data: " ++ repr row))
            | [] => print "No rows in table"
            end)
           (fun msg => print ("Error reading pending_nodes table: " ++ msg));
     close)
    (fun e => print ("Error: " ++ describe e)).

Definition empty_console : Console := mkConsole initial_world [].

(** The world of a console after one more connection was opened. *)
Definition opened (c : Console) : World :=
  mkWorld (S (live_connections (world c))) (entitlement_calls (world c)).

(** What the inner [try] meets: the exception of [execute] or of
    [fetchall], or the rows. *)
Definition select_result {R} (db : Database R) : db_error + list R :=
  match select_execute db with
  | Some e => inl e
  | None => select_fetchall db
  end.

(** The lines the script prints for the rows it fetched. *)
Definition listing {R} (repr : R -> string) (rows : list R) : list string :=
  match rows with
  | [] => ["No rows in table"]
  | _ :: _ => List.map (fun row => "Row data: " ++ repr row) rows
  end.

End ShowDb.

(** ** Concrete runs *)

Module Examples.
Import Subscription Nodes.

Definition body_of (m : gmap string json) : Request := mkRequest (inr (JObj m)).
Definition chain (answer : json -> exn + bool) : Web3 := mkWeb3 (inr tt) answer.

Definition alpha : Row := mkRow "0xab" "Alpha" "DE" "approved".
Definition beta : Row := mkRow "0xAB" "Beta" "FR" "approved".

(** A database file without the [pending_nodes] table: [connect] succeeds
    and [execute] raises [sqlite3.OperationalError]. *)
Definition no_table : Store :=
  mkStore None (Some (Exception "no such table: pending_nodes")) None [].

(** A database file that cannot be opened, although a record is stored
    in it. *)
Definition unreachable : Store :=
  mkStore (Some (Exception "unable to open database file")) None None [alpha].

Definition create_table : string :=
  "CREATE TABLE pending_nodes (address TEXT, friendly_name TEXT, country TEXT, status TEXT)".

(** The text of a row, for runs of the script on rows that are already
    text. *)
Definition as_is (row : string) : string := row.

Definition two_rows : ShowDb.Database string :=
  ShowDb.mkDatabase None None (inr (Some create_table)) None (inr ["r1"; "r2"]).

Definition missing_table : ShowDb.Database string :=
  ShowDb.mkDatabase None None (inr None)
    (Some (ShowDb.OperationalError "no such table: pending_nodes")) (inr []).

Definition not_a_database : ShowDb.Database string :=
  ShowDb.mkDatabase None (Some (ShowDb.OtherError "file is not a database"))
    (inr None) None (inr []).

Example active_run :
  verify_subscription (chain (fun _ => inr true))
    (body_of {[ "eth_address" := JStr "0xAbC" ]}) initial_world
  = (inr (mkResponse 200 (JObj {[ "status" := JStr "active" ]})),
     mkWorld 0 [(JStr "0xAbC", inr true)]).
Proof. reflexivity. Qed.

Example denied_run :
  verify_subscription (chain (fun _ => inr false))
    (body_of {[ "eth_address" := JStr "0xAbC" ]}) initial_world
  = (inr (mkResponse 401 (error_body "No active subscription")),
     mkWorld 0 [(JStr "0xAbC", inr false)]).
Proof. reflexivity. Qed.

Example lower_run : LOWER "0xAbCdEf[Z@" = "0xabcdef[z@".
Proof. reflexivity. Qed.

Example found_run :
  get_node_details (healthy [alpha]) "0xAB" initial_world
  = (inr (mkResponse 200 (details_body "Alpha" "DE")), initial_world).
Proof. reflexivity. Qed.

Example pending_run :
  get_node_details (healthy [mkRow "0xab" "Alpha" "DE" "pending"]) "0xab" initial_world
  = (inr (mkResponse 200 placeholder), initial_world).
Proof. reflexivity. Qed.

Example listing_run :
  ShowDb.show_table_contents as_is two_rows ShowDb.empty_console
  = (inr tt,
     ShowDb.mkConsole initial_world
       ["Table Schema:"; create_table; ShowDb.contents_heading;
        "Row data: r1"; "Row data: r2"]).
Proof. reflexivity. Qed.

Example missing_table_run :
  ShowDb.show_table_contents as_is missing_table ShowDb.empty_console
  = (inr tt,
     ShowDb.mkConsole initial_world
       ["Table Schema:"; "No schema found";
        "Error reading pending_nodes table: no such table: pending_nodes"]).
Proof. reflexivity. Qed.

End Examples.

(** ** Properties of [verify_subscription] *)

Section SubscriptionFacts.
Import Subscription.

Lemma append_one_changes {A} (l : list A) (x : A) : l ≠ (l ++ [x])%list.
Proof.
  intros H. apply (f_equal (@length A)) in H.
  rewrite length_app in H. simpl in H. lia.
Qed.

Lemma append_one_inj {A} (l : list A) (x y : A) :
  (l ++ [x])%list = (l ++ [y])%list → x = y.
Proof. intros H. apply app_inv_head in H. congruence. Qed.

(** The handler's [try] catches every exception: a response always comes
    back. *)
Lemma verify_subscription_responds w3 request w :
  ∃ resp w', verify_subscription w3 request w = (inr resp, w').
Proof.
  unfold verify_subscription, try_except, mbind, M_bind, bind, lift, mret, M_ret, ret.
  destruct (get_json request) as [e | data]; [eauto |].
  destruct (data_get data "eth_address") as [e | v]; [eauto |].
  destruct (truthy v); simpl; [| eauto].
  destruct (eth_contract w3) as [e | []]; [eauto |].
  unfold call_hasActiveSubscription.
  destruct (hasActiveSubscription w3 v) as [e | []]; eauto.
Qed.

(** Every run either makes no entitlement call, or makes exactly one, with
    the value of [data.get('eth_address')] as it came, and answers from
    its outcome. *)
Lemma verify_subscription_cases w3 request w :
  (∃ resp, verify_subscription w3 request w = (inr resp, w))
  ∨ (∃ data v,
        get_json request = inr data
        ∧ data_get data "eth_address" = inr v
        ∧ truthy v = true
        ∧ verify_subscription w3 request w
          = (inr match hasActiveSubscription w3 v with
                 | inr true => mkResponse 200 (JObj {[ "status" := JStr "active" ]})
                 | inr false => mkResponse 401 (error_body "No active subscription")
                 | inl e => mkResponse 500 (error_body (str e))
                 end,
             mkWorld (live_connections w)
               (entitlement_calls w ++ [(v, hasActiveSubscription w3 v)]))).
Proof.
  unfold verify_subscription, try_except, mbind, M_bind, bind, lift, mret, M_ret, ret.
  destruct (get_json request) as [e | data]; [left; eauto |].
  destruct (data_get data "eth_address") as [e | v] eqn:Hget; [left; eauto |].
  destruct (truthy v) eqn:Hv; simpl; [| left; eauto].
  destruct (eth_contract w3) as [e | []]; [left; eauto |].
  right. exists data, v. repeat split; try done.
  unfold call_hasActiveSubscription.
  destruct (hasActiveSubscription w3 v) as [e | []]; reflexivity.
Qed.

(** The handler, unfolded along its exits. *)
Lemma verify_subscription_unfold w3 request w :
  verify_subscription w3 request w =
  match get_json request with
  | inl e => (inr (mkResponse 500 (error_body (str e))), w)
  | inr data =>
      match data_get data "eth_address" with
      | inl e => (inr (mkResponse 500 (error_body (str e))), w)
      | inr v =>
          if truthy v then
            match eth_contract w3 with
            | inl e => (inr (mkResponse 500 (error_body (str e))), w)
            | inr _ =>
                (inr match hasActiveSubscription w3 v with
                     | inr true => mkResponse 200 (JObj {[ "status" := JStr "active" ]})
                     | inr false => mkResponse 401 (error_body "No active subscription")
                     | inl e => mkResponse 500 (error_body (str e))
                     end,
                 mkWorld (live_connections w)
                   (entitlement_calls w ++ [(v, hasActiveSubscription w3 v)]))
            end
          else (inr (mkResponse 400 (error_body "eth_address is required")), w)
      end
  end.
Proof.
  unfold verify_subscription, try_except, mbind, M_bind, bind, lift, mret, M_ret, ret.
  destruct (get_json request) as [e | data]; [reflexivity |].
  destruct (data_get data "eth_address") as [e | v]; [reflexivity |].
  destruct (truthy v); simpl; [| reflexivity].
  destruct (eth_contract w3) as [e | []]; [reflexivity |].
  unfold call_hasActiveSubscription.
  destruct (hasActiveSubscription w3 v) as [e | []]; reflexivity.
Qed.

(** C1. The entitlement check of a request is the contract's
    [hasActiveSubscription] applied to the submitted eth_address, and the
    response follows its outcome: when it returns true the response is
    200 with body {"status": "active"}; when it returns false the
    response is 401 with body {"error": "No active subscription"}, whose
    status is not 500; when it raises, the response is 500 with the
    error's description in the body. This holds both ways round: for
    every call the run records, and for every request whose eth_address
    reaches the contract. *)
Theorem verify_subscription_maps_entitlement_outcome w3 request w r w' :
  verify_subscription w3 request w = (r, w') →
  (∀ arg (outcome : exn + bool),
     entitlement_calls w' = (entitlement_calls w ++ [(arg, outcome)])%list →
     outcome = hasActiveSubscription w3 arg
     ∧ (∃ data, get_json request = inr data
                ∧ data_get data "eth_address" = inr arg
                ∧ truthy arg = true)
     ∧ eth_contract w3 = inr tt
     ∧ match outcome with
       | inr true => r = inr (mkResponse 200 (JObj {[ "status" := JStr "active" ]}))
       | inr false =>
           r = inr (mkResponse 401 (error_body "No active subscription"))
           ∧ ∀ resp, r = inr resp → status_code resp ≠ 500%Z
       | inl e => r = inr (mkResponse 500 (error_body (str e)))
       end)
  ∧ (∀ data v,
       get_json request = inr data →
       data_get data "eth_address" = inr v →
       truthy v = true →
       eth_contract w3 = inr tt →
       entitlement_calls w'
       = (entitlement_calls w ++ [(v, hasActiveSubscription w3 v)])%list
       ∧ match hasActiveSubscription w3 v with
         | inr true => r = inr (mkResponse 200 (JObj {[ "status" := JStr "active" ]}))
         | inr false =>
             r = inr (mkResponse 401 (error_body "No active subscription"))
             ∧ ∀ resp, r = inr resp → status_code resp ≠ 500%Z
         | inl e => r = inr (mkResponse 500 (error_body (str e)))
         end).
Proof.
  rewrite verify_subscription_unfold. intros Hrun. split.
  - intros arg outcome Hcall.
    destruct (get_json request) as [e | data];
      [inversion Hrun; subst; exfalso; exact (append_one_changes _ _ Hcall) |].
    destruct (data_get data "eth_address") as [e | v] eqn:Hget;
      [inversion Hrun; subst; exfalso; exact (append_one_changes _ _ Hcall) |].
    destruct (truthy v) eqn:Hv;
      [| inversion Hrun; subst; exfalso; exact (append_one_changes _ _ Hcall)].
    destruct (eth_contract w3) as [e | []];
      [inversion Hrun; subst; exfalso; exact (append_one_changes _ _ Hcall) |].
    inversion Hrun; subst; clear Hrun. simpl in Hcall.
    apply append_one_inj in Hcall. inversion Hcall; subst; clear Hcall.
    split; [reflexivity |]. split; [exists data; done |]. split; [reflexivity |].
    destruct (hasActiveSubscription w3 arg) as [e | []]; try done.
    split; [done |]. intros resp Hr. inversion Hr; subst. done.
  - intros data v Hj Hg Hv Hc. rewrite Hj, Hg, Hv, Hc in Hrun.
    inversion Hrun; subst; clear Hrun. split; [reflexivity |].
    destruct (hasActiveSubscription w3 v) as [e | []]; try done.
    split; [done |]. intros resp Hr. inversion Hr; subst. done.
Qed.

Lemma verify_subscription_maps_entitlement_outcome_witness :
  (fst (verify_subscription (Examples.chain (λ _, inr true))
          (Examples.body_of {[ "eth_address" := JStr "0xAbC" ]}) initial_world)
   = inr (mkResponse 200 (JObj {[ "status" := JStr "active" ]})))
  ∧ (fst (verify_subscription (Examples.chain (λ _, inr false))
            (Examples.body_of {[ "eth_address" := JStr "0xAbC" ]}) initial_world)
     = inr (mkResponse 401 (error_body "No active subscription")))
  ∧ (fst (verify_subscription
            (Examples.chain (λ _, inl (Exception "execution reverted")))
            (Examples.body_of {[ "eth_address" := JStr "0xAbC" ]}) initial_world)
     = inr (mkResponse 500 (error_body "execution reverted"))).
Proof.
  split; [| split].
  - exact (proj2 (proj2 (proj2 (proj1 (verify_subscription_maps_entitlement_outcome
             (Examples.chain (λ _, inr true))
             (Examples.body_of {[ "eth_address" := JStr "0xAbC" ]})
             initial_world _ _ eq_refl)
             (JStr "0xAbC") (inr true) eq_refl)))).
  - exact (proj1 (proj2 (proj2 (verify_subscription_maps_entitlement_outcome
             (Examples.chain (λ _, inr false))
             (Examples.body_of {[ "eth_address" := JStr "0xAbC" ]})
             initial_world _ _ eq_refl)
             (JObj {[ "eth_address" := JStr "0xAbC" ]}) (JStr "0xAbC")
             eq_refl eq_refl eq_refl eq_refl))).
  - exact (proj2 (proj2 (verify_subscription_maps_entitlement_outcome
             (Examples.chain (λ _, inl (Exception "execution reverted")))
             (Examples.body_of {[ "eth_address" := JStr "0xAbC" ]})
             initial_world _ _ eq_refl)
             (JObj {[ "eth_address" := JStr "0xAbC" ]}) (JStr "0xAbC")
             eq_refl eq_refl eq_refl eq_refl)).
Defined.

(** C4. A request that carries no JSON body, for which [get_json()] gives
    [None] or raises, is answered with status 500 and the text of the
    internal error, not with 400 and "eth_address is required". *)
Theorem verify_subscription_without_body_is_500 w3 w :
  verify_subscription w3 (mkRequest (inr JNull)) w
  = (inr (mkResponse 500
            (error_body "'NoneType' object has no attribute 'get'")), w)
  ∧ (∀ e, verify_subscription w3 (mkRequest (inl e)) w
          = (inr (mkResponse 500 (error_body (str e))), w))
  ∧ mkResponse 500 (error_body "'NoneType' object has no attribute 'get'")
    ≠ mkResponse 400 (error_body "eth_address is required").
Proof. repeat split; done. Qed.

(** C10. When the body is a JSON object whose eth_address is the empty
    string, null, false or 0, or which has no eth_address at all, the
    response is 400 with body {"error": "eth_address is required"}, and
    no entitlement call is made. *)
Theorem verify_subscription_rejects_falsy_address w3 (m : gmap string json) w :
  m !! "eth_address" = None
  ∨ m !! "eth_address" = Some (JStr "")
  ∨ m !! "eth_address" = Some JNull
  ∨ m !! "eth_address" = Some (JBool false)
  ∨ m !! "eth_address" = Some (JInt 0) →
  verify_subscription w3 (mkRequest (inr (JObj m))) w
  = (inr (mkResponse 400 (error_body "eth_address is required")), w).
Proof.
  intros H.
  unfold verify_subscription, try_except, mbind, M_bind, bind, lift; simpl.
  destruct H as [-> | [-> | [-> | [-> | ->]]]]; reflexivity.
Qed.

Lemma verify_subscription_rejects_falsy_address_witness :
  verify_subscription (Examples.chain (λ _, inr true))
    (Examples.body_of {[ "eth_address" := JInt 0 ]}) initial_world
  = (inr (mkResponse 400 (error_body "eth_address is required")), initial_world).
Proof.
  apply (verify_subscription_rejects_falsy_address
           (Examples.chain (λ _, inr true)) {[ "eth_address" := JInt 0 ]}
           initial_world).
  right; right; right; right. reflexivity.
Defined.

(** C5, as the spec has it, fails: for the body {"eth_address": "0xAbC"}
    the entitlement call carries "0xAbC", which is not its normalized
    form. *)
Lemma entitlement_call_not_normalized :
  entitlement_calls
    (snd (verify_subscription (Examples.chain (λ _, inr true))
            (Examples.body_of {[ "eth_address" := JStr "0xAbC" ]}) initial_world))
  = [(JStr "0xAbC", inr true)]
  ∧ JStr "0xAbC" ≠ JStr (Normalize "0xAbC").
Proof. split; [reflexivity | discriminate]. Qed.

(** C5, amended. Whenever a request leads to an entitlement call, the
    argument of that call is the value of the body's eth_address field
    exactly as submitted. *)
Theorem entitlement_call_receives_submitted_address
    w3 request w r w' arg (outcome : exn + bool) :
  verify_subscription w3 request w = (r, w') →
  entitlement_calls w' = (entitlement_calls w ++ [(arg, outcome)])%list →
  ∃ data, get_json request = inr data
          ∧ data_get data "eth_address" = inr arg
          ∧ outcome = hasActiveSubscription w3 arg.
Proof.
  intros Hrun Hcall.
  destruct (verify_subscription_cases w3 request w)
    as [[resp Hq] | (data & v & Hjson & Hget & _ & Hq)];
    rewrite Hq in Hrun; inversion Hrun; subst; clear Hrun.
  - exfalso. exact (append_one_changes _ _ Hcall).
  - simpl in Hcall. apply append_one_inj in Hcall.
    inversion Hcall; subst. eauto.
Qed.

Lemma entitlement_call_receives_submitted_address_witness :
  ∃ data, get_json (Examples.body_of {[ "eth_address" := JStr "0xAbC" ]}) = inr data
          ∧ data_get data "eth_address" = inr (JStr "0xAbC")
          ∧ inr true = hasActiveSubscription (Examples.chain (λ _, inr true)) (JStr "0xAbC").
Proof.
  exact (entitlement_call_receives_submitted_address
           (Examples.chain (λ _, inr true))
           (Examples.body_of {[ "eth_address" := JStr "0xAbC" ]})
           initial_world _ _ (JStr "0xAbC") (inr true) eq_refl eq_refl).
Defined.

End SubscriptionFacts.

(** ** Properties of [get_node_details] *)

Section NodesFacts.
Import Nodes.

Lemma where_clause_matches param r : where_clause param r = true ↔ matches param r.
Proof.
  unfold where_clause, matches.
  rewrite andb_true_iff, !String.eqb_eq. reflexivity.
Qed.

Lemma where_clause_no_match param r : where_clause param r = false ↔ ¬ matches param r.
Proof.
  rewrite <- where_clause_matches. destruct (where_clause param r); split; congruence.
Qed.

Lemma first_match_none param rows :
  (∀ r, In r rows → ¬ matches param r) → first_match param rows = None.
Proof.
  unfold first_match. induction rows as [| r rows IH]; intros Hno; [done |].
  simpl. destruct (where_clause param r) eqn:Hr.
  - apply where_clause_matches in Hr. exfalso. apply (Hno r); [left |]; done.
  - apply IH. intros r' Hin. apply Hno. right; done.
Qed.

Lemma first_match_skip param rows1 rows2 :
  (∀ r, In r rows1 → ¬ matches param r) →
  first_match param (rows1 ++ rows2) = first_match param rows2.
Proof.
  unfold first_match. induction rows1 as [| r rows1 IH]; intros Hno; [done |].
  simpl. destruct (where_clause param r) eqn:Hr.
  - apply where_clause_matches in Hr. exfalso. apply (Hno r); [left |]; done.
  - apply IH. intros r' Hin. apply Hno. right; done.
Qed.

(** A row that the [WHERE] clause rejects does not show in the query. *)
Lemma filter_drops_rejected param rows1 r rows2 :
  where_clause param r = false →
  List.filter (where_clause param) (rows1 ++ r :: rows2)
  = List.filter (where_clause param) (rows1 ++ rows2).
Proof.
  intros Hr. rewrite !List.filter_app. simpl. rewrite Hr. reflexivity.
Qed.

(** The handler, unfolded along its exits. *)
Lemma get_node_details_unfold db param w :
  get_node_details db param w =
  match connect_fault db with
  | Some _ => (inr (jsonify placeholder), w)
  | None =>
      match execute_fault db, fetchone_fault db with
      | Some _, _ | None, Some _ =>
          (inr (jsonify placeholder),
           mkWorld (S (live_connections w)) (entitlement_calls w))
      | None, None =>
          (inr (jsonify match first_match param (pending_nodes db) with
                        | Some (name, ctry) => details_body name ctry
                        | None => placeholder
                        end),
           mkWorld (live_connections w) (entitlement_calls w))
      end
  end.
Proof.
  unfold get_node_details, try_except, mbind, M_bind, bind, sqlite3_connect,
    cursor_execute, cursor_fetchone, conn_close, first_match, raise, ret, mret, M_ret.
  destruct (connect_fault db); [reflexivity |].
  destruct (execute_fault db); [reflexivity |].
  destruct (fetchone_fault db); [reflexivity |]. simpl.
  destruct (hd_error _) as [[name ctry] |]; reflexivity.
Qed.

(** C2. When no stored record matches the address case-insensitively with
    status 'approved', the response body is exactly the placeholder
    pair. *)
Theorem get_node_details_placeholder_when_no_match db param w :
  (∀ r, In r (pending_nodes db) →
        ¬ (LOWER (address r) = LOWER param ∧ status r = "approved")) →
  fst (get_node_details db param w)
  = inr (mkResponse 200
           (JObj {[ "friendly_name" := JStr "Hold on there";
                    "country" := JStr "Hold on there" ]})).
Proof.
  intros Hno. rewrite get_node_details_unfold.
  destruct (connect_fault db); [reflexivity |].
  destruct (execute_fault db); [reflexivity |].
  destruct (fetchone_fault db); [reflexivity |].
  rewrite (first_match_none param (pending_nodes db) Hno). reflexivity.
Qed.

Lemma get_node_details_placeholder_when_no_match_witness :
  fst (get_node_details
         (healthy [mkRow "0xab" "Alpha" "DE" "pending"; mkRow "0xcd" "Gamma" "NL" "approved"])
         "0xAB" initial_world)
  = inr (mkResponse 200
           (JObj {[ "friendly_name" := JStr "Hold on there";
                    "country" := JStr "Hold on there" ]})).
Proof.
  apply (get_node_details_placeholder_when_no_match
           (healthy [mkRow "0xab" "Alpha" "DE" "pending"; mkRow "0xcd" "Gamma" "NL" "approved"])
           "0xAB" initial_world).
  intros r [<- | [<- | []]] [Haddr Hstatus]; simpl in *; discriminate.
Defined.

(** C3. Every request to GetNodeDetails is answered, and with status 200,
    whatever the store does on connect, on the query or on reading the
    result. *)
Theorem get_node_details_always_200 db param w :
  ∃ resp, fst (get_node_details db param w) = inr resp ∧ status_code resp = 200%Z.
Proof.
  rewrite get_node_details_unfold.
  destruct (connect_fault db); [eexists; split; reflexivity |].
  destruct (execute_fault db); [eexists; split; reflexivity |].
  destruct (fetchone_fault db); eexists; split; reflexivity.
Qed.

(** C6. When the query raises after the connection was opened, the
    handler returns its response with the connection still open: on a
    database file without the pending_nodes table one more connection is
    live after the request than before it. On the found and not-found
    paths the connection is closed and the world is as before. *)
Theorem get_node_details_leaks_connection_on_error param w :
  get_node_details Examples.no_table param w
  = (inr (jsonify placeholder),
     mkWorld (S (live_connections w)) (entitlement_calls w))
  ∧ ∀ rows, snd (get_node_details (healthy rows) param w) = w.
Proof.
  split; [reflexivity |].
  intros rows. rewrite get_node_details_unfold. destruct w; reflexivity.
Qed.

Lemma first_match_some param rows name ctry :
  first_match param rows = Some (name, ctry) →
  ∃ r, In r rows ∧ matches param r ∧ friendly_name r = name ∧ country r = ctry.
Proof.
  unfold first_match. induction rows as [| r rows IH]; [discriminate |].
  simpl. destruct (where_clause param r) eqn:Hr.
  - simpl. intros [= <- <-]. exists r.
    apply where_clause_matches in Hr. split; [left |]; done.
  - intros H. destruct (IH H) as (r' & Hin & Hrest). exists r'. split; [right |]; done.
Qed.

Lemma first_match_exists param rows r :
  In r rows → matches param r → first_match param rows ≠ None.
Proof.
  unfold first_match. induction rows as [| r0 rows IH]; intros Hin Hm; [destruct Hin |].
  simpl. destruct (where_clause param r0) eqn:Hr0; [discriminate |].
  apply IH; [| exact Hm]. destruct Hin as [<- | Hin]; [| exact Hin].
  apply where_clause_matches in Hm. congruence.
Qed.

(** With several approved records under one address, the first in scan
    order answers. *)
Lemma get_node_details_first_match_wins rows1 r rows2 param w :
  status r = "approved" →
  LOWER param = LOWER (address r) →
  (∀ r', In r' rows1 →
         ¬ (LOWER (address r') = LOWER param ∧ status r' = "approved")) →
  get_node_details (healthy (rows1 ++ r :: rows2)) param w
  = (inr (mkResponse 200 (details_body (friendly_name r) (country r))), w).
Proof.
  intros Hstatus Haddr Hfirst.
  rewrite get_node_details_unfold. simpl.
  rewrite (first_match_skip param rows1 (r :: rows2) Hfirst).
  unfold first_match. simpl.
  assert (where_clause param r = true) as ->
    by (apply where_clause_matches; split; done).
  destruct w; reflexivity.
Qed.

(** C7. On a store whose operations succeed and whose approved records
    are keyed one to one by normalized address, as the data model has it,
    for every stored record (addr, name, country) with status 'approved'
    and every request address equal to addr up to letter casing (as
    SQLite's LOWER folds it), GetNodeDetails returns {"friendly_name":
    name, "country": country}; and on every store two request addresses
    that differ only in casing get the same response. *)
Theorem get_node_details_approved_record_any_casing rows r param w :
  (∀ r1 r2, In r1 rows → In r2 rows →
            status r1 = "approved" → status r2 = "approved" →
            LOWER (address r1) = LOWER (address r2) → r1 = r2) →
  In r rows →
  status r = "approved" →
  LOWER param = LOWER (address r) →
  get_node_details (healthy rows) param w
  = (inr (mkResponse 200
            (JObj {[ "friendly_name" := JStr (friendly_name r);
                     "country" := JStr (country r) ]})),
     w)
  ∧ ∀ db param', LOWER param' = LOWER param →
      get_node_details db param' w = get_node_details db param w.
Proof.
  intros Hunique Hin Hstatus Haddr. split.
  - rewrite get_node_details_unfold. simpl.
    assert (matches param r) as Hm by (split; done).
    destruct (first_match param rows) as [[name ctry] |] eqn:Hfm.
    + destruct (first_match_some _ _ _ _ Hfm) as (r' & Hin' & [Haddr' Hst'] & <- & <-).
      assert (r' = r) as -> by (apply Hunique; congruence).
      destruct w; reflexivity.
    + exfalso. exact (first_match_exists param rows r Hin Hm Hfm).
  - intros db param' Hcase. rewrite !get_node_details_unfold.
    unfold first_match, where_clause. rewrite Hcase. reflexivity.
Qed.

Lemma get_node_details_approved_record_any_casing_witness :
  get_node_details
    (healthy [mkRow "0xab" "Old" "SE" "pending"; Examples.alpha;
              mkRow "0xcd" "Gamma" "NL" "approved"])
    "0XAB" initial_world
  = (inr (mkResponse 200
            (JObj {[ "friendly_name" := JStr "Alpha"; "country" := JStr "DE" ]})),
     initial_world).
Proof.
  refine (proj1 (get_node_details_approved_record_any_casing
                   [mkRow "0xab" "Old" "SE" "pending"; Examples.alpha;
                    mkRow "0xcd" "Gamma" "NL" "approved"]
                   Examples.alpha "0XAB" initial_world _ _ eq_refl eq_refl)).
  - intros r1 r2 [<- | [<- | [<- | []]]] [<- | [<- | [<- | []]]] H1 H2 H3;
      first [reflexivity | discriminate H1 | discriminate H2 | discriminate H3].
  - right; left; reflexivity.
Defined.

(** C8. A stored record whose status is anything other than 'approved'
    makes no difference to GetNodeDetails: the handler does on the store
    with the record what it does on the store without it; and when no
    other record matches the address as approved, the response is the
    placeholder pair, not the record's name and country. *)
Theorem get_node_details_ignores_unapproved cf ef ff rows1 r rows2 param w :
  status r ≠ "approved" →
  get_node_details (mkStore cf ef ff (rows1 ++ r :: rows2)) param w
  = get_node_details (mkStore cf ef ff (rows1 ++ rows2)) param w
  ∧ ((∀ r', In r' (rows1 ++ rows2) →
            ¬ (LOWER (address r') = LOWER param ∧ status r' = "approved")) →
     fst (get_node_details (mkStore cf ef ff (rows1 ++ r :: rows2)) param w)
     = inr (mkResponse 200 placeholder)).
Proof.
  intros Hstatus.
  assert (where_clause param r = false) as Hr
    by (apply where_clause_no_match; intros [_ H]; done).
  assert (get_node_details (mkStore cf ef ff (rows1 ++ r :: rows2)) param w
          = get_node_details (mkStore cf ef ff (rows1 ++ rows2)) param w) as Heq.
  { rewrite !get_node_details_unfold. unfold first_match. simpl.
    rewrite (filter_drops_rejected param rows1 r rows2 Hr). reflexivity. }
  split; [exact Heq |].
  intros Hno. rewrite Heq, get_node_details_unfold. simpl.
  destruct cf; [reflexivity |]. destruct ef; [reflexivity |].
  destruct ff; [reflexivity |].
  rewrite (first_match_none param (rows1 ++ rows2) Hno). reflexivity.
Qed.

Lemma get_node_details_ignores_unapproved_witness :
  get_node_details
    (mkStore None None None ([] ++ mkRow "0xab" "Old" "SE" "pending" :: [Examples.alpha]))
    "0xAB" initial_world
  = get_node_details (mkStore None None None ([] ++ [Examples.alpha])) "0xAB" initial_world.
Proof.
  refine (proj1 (get_node_details_ignores_unapproved None None None
                   [] (mkRow "0xab" "Old" "SE" "pending") [Examples.alpha]
                   "0xAB" initial_world _)).
  simpl. discriminate.
Defined.

(** C9. The address is compared without regard to the casing of ASCII
    letters, the status exactly: a record is selected precisely when its
    lower-cased address equals the lower-cased request address and its
    status is the string 'approved'. Hence a stored record whose status
    differs from 'approved' only in letter casing, such as 'Approved', is
    treated as absent, and the placeholder pair is returned when no other
    record matches. *)
Theorem get_node_details_status_is_case_sensitive cf ef ff rows1 r rows2 param w :
  LOWER (status r) = "approved" →
  status r ≠ "approved" →
  (∀ p r', where_clause p r' = true
           ↔ LOWER (address r') = LOWER p ∧ status r' = "approved")
  ∧ where_clause "0xAB" (mkRow "0xab" "Alpha" "DE" "Approved") = false
  ∧ get_node_details (mkStore cf ef ff (rows1 ++ r :: rows2)) param w
    = get_node_details (mkStore cf ef ff (rows1 ++ rows2)) param w
  ∧ ((∀ r', In r' (rows1 ++ rows2) →
            ¬ (LOWER (address r') = LOWER param ∧ status r' = "approved")) →
     fst (get_node_details (mkStore cf ef ff (rows1 ++ r :: rows2)) param w)
     = inr (mkResponse 200 placeholder)).
Proof.
  intros _ Hstatus.
  assert (where_clause param r = false) as Hr
    by (apply where_clause_no_match; intros [_ H]; done).
  split; [exact where_clause_matches |]. split; [reflexivity |].
  assert (first_match param (rows1 ++ r :: rows2) = first_match param (rows1 ++ rows2))
    as Hfm by (unfold first_match; rewrite (filter_drops_rejected _ _ _ _ Hr); done).
  split.
  - rewrite !get_node_details_unfold. simpl. rewrite Hfm. reflexivity.
  - intros Hno. rewrite get_node_details_unfold. simpl.
    destruct cf; [reflexivity |]. destruct ef; [reflexivity |].
    destruct ff; [reflexivity |].
    rewrite Hfm, (first_match_none param (rows1 ++ rows2) Hno). reflexivity.
Qed.

Lemma get_node_details_status_is_case_sensitive_witness :
  fst (get_node_details
         (mkStore None None None ([] ++ mkRow "0xab" "Alpha" "DE" "Approved" :: []))
         "0xAB" initial_world)
  = inr (mkResponse 200 placeholder).
Proof.
  refine (proj2 (proj2 (proj2 (get_node_details_status_is_case_sensitive
                   None None None [] (mkRow "0xab" "Alpha" "DE" "Approved") []
                   "0xAB" initial_world eq_refl _))) _).
  - simpl. discriminate.
  - intros r' [].
Defined.

End NodesFacts.

(** ** Properties of [show_table_contents] *)

Section ShowDbFacts.
Import ShowDb.
Context {R : Type} (repr : R → string).

Lemma for_each_print (f : R → string) rows c :
  for_each rows (λ row, print (f row)) c
  = (inr tt, mkConsole (world c) (stdout c ++ List.map f rows)).
Proof.
  revert c. induction rows as [| row rows IH]; intros c.
  - simpl. rewrite app_nil_r. destruct c; reflexivity.
  - simpl. unfold mbind, Script_bind, print at 1. rewrite IH. simpl.
    rewrite <- app_assoc. reflexivity.
Qed.

Lemma print_applied line c :
  print line c = (inr tt, mkConsole (world c) (stdout c ++ [line])).
Proof. reflexivity. Qed.

Local Ltac finish_run Hline Hout :=
  rewrite ?print_applied; unfold close; simpl;
  rewrite ?Hline, ?Hout, <- ?app_assoc; reflexivity.

(** The script, unfolded along its exits. *)
Lemma show_table_contents_unfold (db : Database R) c :
  show_table_contents repr db c =
  match connect_outcome db with
  | Some e => (inr tt, mkConsole (world c) (stdout c ++ ["Error: " ++ describe e]))
  | None =>
      match schema_execute db, schema_fetchone db with
      | Some e, _ | None, inl e =>
          (inr tt, mkConsole (opened c) (stdout c ++ ["Error: " ++ describe e]))
      | None, inr schema =>
          let head := [ "Table Schema:"; default "No schema found" schema ] in
          match select_result db with
          | inl (OperationalError msg) =>
              (inr tt,
               mkConsole (world c)
                 (stdout c ++ head ++ ["Error reading pending_nodes table: " ++ msg]))
          | inl (OtherError msg) =>
              (inr tt, mkConsole (opened c) (stdout c ++ head ++ ["Error: " ++ msg]))
          | inr rows =>
              (inr tt,
               mkConsole (world c)
                 (stdout c ++ head ++ contents_heading :: listing repr rows))
          end
      end
  end.
Proof.
  unfold show_table_contents, except_exception, except_operational, mbind,
    Script_bind, connect, may_raise, outcome, fail, mret, Script_ret, select_result,
    opened.
  destruct c as [[n calls] out]; simpl.
  destruct (connect_outcome db); [reflexivity |].
  destruct (schema_execute db); [reflexivity |].
  destruct (schema_fetchone db) as [e | schema]; [reflexivity |].
  assert (∀ tail : list string,
    (((out ++ ["Table Schema:"]) ++ [default "No schema found" schema]) ++ tail
     = out ++ "Table Schema:" :: default "No schema found" schema :: tail)%list) as Hout
    by (intros tail; rewrite <- !app_assoc; reflexivity).
  assert (match schema with Some sql => sql | None => "No schema found" end
          = default "No schema found" schema) as Hline by (destruct schema; reflexivity).
  destruct (select_execute db) as [[msg | msg] |]; simpl;
    [finish_run Hline Hout .. |].
  destruct (select_fetchall db) as [[msg | msg] | rows]; simpl;
    [finish_run Hline Hout .. |].
  destruct rows as [| row rows]; [finish_run Hline Hout |].
  rewrite (for_each_print (λ row, "Row data: " ++ repr row)).
  finish_run Hline Hout.
Qed.

(** X1. When every sqlite3 call succeeds, the script prints the heading
    "Table Schema:", then the CREATE TABLE text or "No schema found", then
    the contents heading, then one "Row data: ..." line per row in the
    order fetched, or "No rows in table" when there is none; it returns
    normally and the connection it opened is closed again. *)
Theorem show_table_contents_lists_rows (db : Database R) c schema rows :
  connect_outcome db = None →
  schema_execute db = None →
  schema_fetchone db = inr schema →
  select_execute db = None →
  select_fetchall db = inr rows →
  show_table_contents repr db c
  = (inr tt,
     mkConsole (world c)
       (stdout c
        ++ [ "Table Schema:";
             match schema with Some sql => sql | None => "No schema found" end;
             contents_heading ]
        ++ match rows with
           | [] => ["No rows in table"]
           | _ :: _ => List.map (λ row, "Row data: " ++ repr row) rows
           end)).
Proof.
  intros Hc He Hs Hx Hf. rewrite show_table_contents_unfold.
  unfold select_result. rewrite Hc, He, Hs, Hx, Hf.
  destruct schema; reflexivity.
Qed.

(** X2. When the SELECT on pending_nodes raises sqlite3.OperationalError,
    at [execute] or at [fetchall], the script prints the schema lines and
    then "Error reading pending_nodes table: <text>", prints no
    "Error: ..." line, returns normally and closes the connection. *)
Theorem show_table_contents_reports_operational_error (db : Database R) c schema msg :
  connect_outcome db = None →
  schema_execute db = None →
  schema_fetchone db = inr schema →
  select_execute db = Some (OperationalError msg)
  ∨ (select_execute db = None ∧ select_fetchall db = inl (OperationalError msg)) →
  show_table_contents repr db c
  = (inr tt,
     mkConsole (world c)
       (stdout c
        ++ [ "Table Schema:";
             match schema with Some sql => sql | None => "No schema found" end;
             "Error reading pending_nodes table: " ++ msg ])).
Proof.
  intros Hc He Hs Hsel. rewrite show_table_contents_unfold.
  unfold select_result. rewrite Hc, He, Hs.
  destruct Hsel as [-> | [-> ->]]; destruct schema; reflexivity.
Qed.

(** X3. When, after a successful connect, the schema query raises, or the
    SELECT raises anything other than sqlite3.OperationalError, the run
    ends with the line "Error: <text>" and the connection is left open:
    [conn.close()] is not reached. *)
Theorem show_table_contents_leaks_on_other_errors (db : Database R) c e :
  connect_outcome db = None →
  schema_execute db = Some e
  ∨ (schema_execute db = None ∧ schema_fetchone db = inl e)
  ∨ (schema_execute db = None ∧ (∃ schema, schema_fetchone db = inr schema)
     ∧ (∃ msg, e = OtherError msg)
     ∧ (select_execute db = Some e
        ∨ (select_execute db = None ∧ select_fetchall db = inl e))) →
  fst (show_table_contents repr db c) = inr tt
  ∧ world (snd (show_table_contents repr db c))
    = mkWorld (S (live_connections (world c))) (entitlement_calls (world c))
  ∧ ∃ lines, stdout (snd (show_table_contents repr db c))
             = (stdout c ++ lines ++ [("Error: " ++ describe e)%string])%list.
Proof.
  intros Hc H. rewrite show_table_contents_unfold, Hc. unfold select_result.
  destruct H as [-> | [[-> ->] | (-> & [schema ->] & [msg ->] & Hsel)]].
  - repeat split. exists []. reflexivity.
  - repeat split. exists []. reflexivity.
  - destruct Hsel as [-> | [-> ->]]; repeat split;
      exists ["Table Schema:"; default "No schema found" schema]; reflexivity.
Qed.

(** X4. Whatever the database does, the script returns normally, prints at
    least one line after what was on the console, makes no entitlement
    call, and leaves the number of open connections as it was or one
    higher; when connect itself raises, the only line printed is
    "Error: <text>" and no connection is opened. *)
Theorem show_table_contents_never_raises (db : Database R) c :
  fst (show_table_contents repr db c) = inr tt
  ∧ (∃ line lines,
       stdout (snd (show_table_contents repr db c)) = (stdout c ++ line :: lines)%list)
  ∧ entitlement_calls (world (snd (show_table_contents repr db c)))
    = entitlement_calls (world c)
  ∧ (live_connections (world (snd (show_table_contents repr db c)))
     = live_connections (world c)
     ∨ live_connections (world (snd (show_table_contents repr db c)))
       = S (live_connections (world c)))
  ∧ ∀ e, connect_outcome db = Some e →
         snd (show_table_contents repr db c)
         = mkConsole (world c) (stdout c ++ ["Error: " ++ describe e]).
Proof.
  rewrite show_table_contents_unfold.
  destruct (connect_outcome db) as [e0 |].
  { repeat split; eauto. intros e [= <-]. reflexivity. }
  destruct (schema_execute db) as [e1 |].
  { repeat split; eauto; done. }
  destruct (schema_fetchone db) as [e2 | schema].
  { repeat split; eauto; done. }
  destruct (select_result db) as [[msg | msg] | rows];
    repeat split; simpl; eauto; done.
Qed.

End ShowDbFacts.

Lemma show_table_contents_lists_rows_witness :
  ShowDb.show_table_contents Examples.as_is Examples.two_rows ShowDb.empty_console
  = (inr tt,
     ShowDb.mkConsole initial_world
       ["Table Schema:"; Examples.create_table; ShowDb.contents_heading;
        "Row data: r1"; "Row data: r2"]).
Proof.
  exact (show_table_contents_lists_rows Examples.as_is Examples.two_rows
           ShowDb.empty_console (Some Examples.create_table) ["r1"; "r2"]
           eq_refl eq_refl eq_refl eq_refl eq_refl).
Defined.

Lemma show_table_contents_reports_operational_error_witness :
  ShowDb.show_table_contents Examples.as_is Examples.missing_table ShowDb.empty_console
  = (inr tt,
     ShowDb.mkConsole initial_world
       ["Table Schema:"; "No schema found";
        "Error reading pending_nodes table: no such table: pending_nodes"]).
Proof.
  exact (show_table_contents_reports_operational_error Examples.as_is
           Examples.missing_table ShowDb.empty_console None
           "no such table: pending_nodes" eq_refl eq_refl eq_refl
           (or_introl eq_refl)).
Defined.

Lemma show_table_contents_leaks_on_other_errors_witness :
  fst (ShowDb.show_table_contents Examples.as_is Examples.not_a_database
         ShowDb.empty_console) = inr tt
  ∧ ShowDb.world (snd (ShowDb.show_table_contents Examples.as_is
                         Examples.not_a_database ShowDb.empty_console))
    = mkWorld 1 []
  ∧ ∃ lines,
      ShowDb.stdout (snd (ShowDb.show_table_contents Examples.as_is
                            Examples.not_a_database ShowDb.empty_console))
      = (lines ++ ["Error: file is not a database"])%list.
Proof.
  exact (show_table_contents_leaks_on_other_errors Examples.as_is
           Examples.not_a_database ShowDb.empty_console
           (ShowDb.OtherError "file is not a database") eq_refl
           (or_introl eq_refl)).
Defined.

(** ** Further properties of [verify_subscription] *)

Section SubscriptionExits.
Import Subscription.

(** X5. A JSON body that is not an object (null, a boolean, a number, a
    string or an array) is answered with status 500 and the message
    "'<type>' object has no attribute 'get'" for its Python type; no
    entitlement call is made. *)
Theorem verify_subscription_non_object_body w3 data w :
  (∀ m, data ≠ JObj m) →
  verify_subscription w3 (mkRequest (inr data)) w
  = (inr (mkResponse 500
            (error_body ("'" ++ type_name data ++ "' object has no attribute 'get'"))),
     w).
Proof.
  intros Hno. rewrite verify_subscription_unfold. simpl.
  destruct data; try reflexivity. exfalso. exact (Hno m eq_refl).
Qed.

Lemma verify_subscription_non_object_body_witness :
  verify_subscription (Examples.chain (λ _, inr true))
    (mkRequest (inr (JArr [JStr "0xAbC"]))) initial_world
  = (inr (mkResponse 500 (error_body "'list' object has no attribute 'get'")),
     initial_world).
Proof.
  apply (verify_subscription_non_object_body (Examples.chain (λ _, inr true))
           (JArr [JStr "0xAbC"]) initial_world).
  intros m H. discriminate H.
Defined.

(** X6. The status is 400 exactly when the body is a JSON object whose
    eth_address is absent or falsy in Python's sense, which besides the
    empty string, null, false and 0 covers 0.0, the empty list and the
    empty object. *)
Theorem verify_subscription_400_iff w3 request w :
  ∃ resp w',
    verify_subscription w3 request w = (inr resp, w')
    ∧ (status_code resp = 400%Z
       ↔ ∃ m, get_json request = inr (JObj m)
              ∧ truthy (default JNull (m !! "eth_address")) = false)
    ∧ truthy (JFloat (S754_zero false)) = false
    ∧ truthy (JArr []) = false
    ∧ truthy (JObj ∅) = false.
Proof.
  rewrite verify_subscription_unfold.
  destruct (get_json request) as [e | data].
  { do 2 eexists. split; [reflexivity |]. split; [| done].
    split; [discriminate | intros (m & H & _); discriminate H]. }
  destruct data as [| b | z | f | s | l | m];
    try (do 2 eexists; split; [reflexivity |]; split; [| done];
         split; [discriminate | intros (m' & H & _); discriminate H]).
  simpl. destruct (truthy (default JNull (m !! "eth_address"))) eqn:Hv.
  - destruct (eth_contract w3) as [e | []];
      [| destruct (hasActiveSubscription w3 _) as [e | []]];
      (do 2 eexists; split; [reflexivity |]; split; [| done];
       split; [discriminate |]; intros (m' & H & Hf); inversion H; subst;
       rewrite Hv in Hf; discriminate Hf).
  - do 2 eexists. split; [reflexivity |]. split; [| done].
    split; [| reflexivity]. intros _. exists m. done.
Qed.

(** X7. The status is 200 exactly when the submitted eth_address is
    truthy, the contract object could be built and the contract's answer
    for that address is true; it is 401 exactly when under the same
    conditions the answer is false. An error of the call is never
    reported as active or as denied. *)
Theorem verify_subscription_status_reflects_answer w3 request w :
  ∃ resp w',
    verify_subscription w3 request w = (inr resp, w')
    ∧ (status_code resp = 200%Z
       ↔ ∃ data v, get_json request = inr data
                   ∧ data_get data "eth_address" = inr v
                   ∧ truthy v = true
                   ∧ eth_contract w3 = inr tt
                   ∧ hasActiveSubscription w3 v = inr true)
    ∧ (status_code resp = 401%Z
       ↔ ∃ data v, get_json request = inr data
                   ∧ data_get data "eth_address" = inr v
                   ∧ truthy v = true
                   ∧ eth_contract w3 = inr tt
                   ∧ hasActiveSubscription w3 v = inr false).
Proof.
  rewrite verify_subscription_unfold.
  destruct (get_json request) as [e | data].
  { do 2 eexists. split; [reflexivity |].
    split; (split; [discriminate | intros (? & ? & H & _); discriminate H]). }
  destruct (data_get data "eth_address") as [e | v] eqn:Hget.
  { do 2 eexists. split; [reflexivity |].
    split; (split; [discriminate |]; intros (d & v & H & Hg & _);
            inversion H; subst; rewrite Hget in Hg; discriminate Hg). }
  destruct (truthy v) eqn:Hv.
  2:{ do 2 eexists. split; [reflexivity |].
      split; (split; [discriminate |]; intros (d & v' & H & Hg & Ht & _);
              inversion H; subst; rewrite Hget in Hg; inversion Hg; subst;
              rewrite Hv in Ht; discriminate Ht). }
  destruct (eth_contract w3) as [e | []] eqn:Hc.
  { do 2 eexists. split; [reflexivity |].
    split; (split; [discriminate |]; intros (? & ? & _ & _ & _ & H & _);
            discriminate H). }
  destruct (hasActiveSubscription w3 v) as [e | []] eqn:Hans;
    (do 2 eexists; split; [reflexivity |]);
    split; (split;
      [ try discriminate; intros _; exists data, v; done
      | try reflexivity; intros (d & v' & H & Hg & _ & _ & Ha);
        inversion H; subst; rewrite Hget in Hg; inversion Hg; subst;
        rewrite Hans in Ha; discriminate Ha ]).
Qed.

(** X8. A request makes at most one entitlement call and opens no
    storage connection; it makes no call at all when the address is
    rejected with 400. *)
Theorem verify_subscription_at_most_one_call w3 request w :
  ∃ resp w',
    verify_subscription w3 request w = (inr resp, w')
    ∧ live_connections w' = live_connections w
    ∧ (entitlement_calls w' = entitlement_calls w
       ∨ ∃ call, entitlement_calls w' = (entitlement_calls w ++ [call])%list)
    ∧ (status_code resp = 400%Z → w' = w).
Proof.
  rewrite verify_subscription_unfold.
  destruct (get_json request) as [e | data]; [by eauto 10 |].
  destruct (data_get data "eth_address") as [e | v]; [by eauto 10 |].
  destruct (truthy v); [| by eauto 10].
  destruct (eth_contract w3) as [e | []]; [by eauto 10 |].
  do 2 eexists. split; [reflexivity |]. split; [reflexivity |].
  split; [right; eexists; reflexivity |].
  destruct (hasActiveSubscription w3 v) as [e | []]; discriminate.
Qed.

(** X9. When building the contract object raises, the response is 500
    with that error's text and the remote call is not attempted. *)
Theorem verify_subscription_contract_failure w3 request w data v e :
  get_json request = inr data →
  data_get data "eth_address" = inr v →
  truthy v = true →
  eth_contract w3 = inl e →
  verify_subscription w3 request w = (inr (mkResponse 500 (error_body (str e))), w).
Proof.
  intros Hj Hg Hv Hc. rewrite verify_subscription_unfold, Hj, Hg, Hv, Hc. reflexivity.
Qed.

Lemma verify_subscription_contract_failure_witness :
  verify_subscription (mkWeb3 (inl (Exception "invalid address")) (λ _, inr true))
    (Examples.body_of {[ "eth_address" := JStr "0xAbC" ]}) initial_world
  = (inr (mkResponse 500 (error_body "invalid address")), initial_world).
Proof.
  exact (verify_subscription_contract_failure
           (mkWeb3 (inl (Exception "invalid address")) (λ _, inr true))
           (Examples.body_of {[ "eth_address" := JStr "0xAbC" ]}) initial_world
           (JObj {[ "eth_address" := JStr "0xAbC" ]}) (JStr "0xAbC")
           (Exception "invalid address") eq_refl eq_refl eq_refl eq_refl).
Defined.

(** X10. Every response has one of two shapes: status 200 with body
    {"status": "active"}, or status 400, 401 or 500 with a body of the
    single key "error" holding a message. *)
Theorem verify_subscription_response_shape w3 request w :
  ∃ resp w',
    verify_subscription w3 request w = (inr resp, w')
    ∧ (resp = mkResponse 200 (JObj {[ "status" := JStr "active" ]})
       ∨ ∃ msg, body resp = JObj {[ "error" := JStr msg ]}
                ∧ (status_code resp = 400%Z ∨ status_code resp = 401%Z
                   ∨ status_code resp = 500%Z)).
Proof.
  rewrite verify_subscription_unfold.
  destruct (get_json request) as [e | data]; [by eauto 10 |].
  destruct (data_get data "eth_address") as [e | v]; [by eauto 10 |].
  destruct (truthy v); [| by eauto 10].
  destruct (eth_contract w3) as [e | []]; [by eauto 10 |].
  destruct (hasActiveSubscription w3 v) as [e | []]; by eauto 10.
Qed.

End SubscriptionExits.

(** ** Further properties of [get_node_details] *)

Section NodesExits.
Import Nodes.

Lemma lower_ascii_idempotent c : lower_ascii (lower_ascii c) = lower_ascii c.
Proof. destruct c as [[] [] [] [] [] [] [] []]; reflexivity. Qed.

Lemma LOWER_idempotent s : LOWER (LOWER s) = LOWER s.
Proof.
  induction s as [| c s IH]; [reflexivity |].
  simpl. rewrite lower_ascii_idempotent, IH. reflexivity.
Qed.

Lemma first_match_settled param rows1 rows2 :
  (∃ r, In r rows1 ∧ matches param r) →
  first_match param (rows1 ++ rows2) = first_match param rows1.
Proof.
  unfold first_match. induction rows1 as [| r rows1 IH]; intros (r0 & Hin & Hm).
  - destruct Hin.
  - simpl. destruct (where_clause param r) eqn:Hr; [reflexivity |].
    apply IH. destruct Hin as [<- | Hin].
    + apply where_clause_matches in Hm. congruence.
    + eauto.
Qed.

Lemma get_node_details_same_query cf ef ff rows rows' param param' w :
  List.filter (where_clause param') rows' = List.filter (where_clause param) rows →
  get_node_details (mkStore cf ef ff rows') param' w
  = get_node_details (mkStore cf ef ff rows) param w.
Proof.
  intros H. rewrite !get_node_details_unfold. unfold first_match. simpl.
  rewrite H. reflexivity.
Qed.

(** X11. The only trace a request leaves in the world is the connection:
    no entitlement call is made, and the number of open connections is
    one higher than before exactly when connect succeeded and the query
    or the fetch raised; otherwise the world is as before. *)
Theorem get_node_details_world_effect db param w :
  entitlement_calls (snd (get_node_details db param w)) = entitlement_calls w
  ∧ (live_connections (snd (get_node_details db param w)) = S (live_connections w)
     ↔ connect_fault db = None
       ∧ (execute_fault db ≠ None ∨ fetchone_fault db ≠ None))
  ∧ (¬ (connect_fault db = None
        ∧ (execute_fault db ≠ None ∨ fetchone_fault db ≠ None)) →
     snd (get_node_details db param w) = w).
Proof.
  rewrite get_node_details_unfold.
  destruct (connect_fault db) as [e |].
  { simpl. split; [reflexivity |]. split; [| reflexivity].
    split; [lia | intros [H _]; discriminate H]. }
  destruct (execute_fault db) as [e |].
  { simpl. split; [reflexivity |]. split.
    - split; [intros _; split; [reflexivity | left; discriminate] | reflexivity].
    - intros H. exfalso. apply H. split; [reflexivity | left; discriminate]. }
  destruct (fetchone_fault db) as [e |]; simpl.
  - split; [reflexivity |]. split.
    + split; [intros _; split; [reflexivity | right; discriminate] | reflexivity].
    + intros H. exfalso. apply H. split; [reflexivity | right; discriminate].
  - split; [reflexivity |]. split.
    + split; [lia | intros [_ [H | H]]; exfalso; apply H; reflexivity].
    + intros _. destruct w; reflexivity.
Qed.

(** X12. Whenever connect, the query or the fetch raises, the response
    is the placeholder pair with status 200, also for an address under
    which an approved record is stored. *)
Theorem get_node_details_placeholder_on_failure db param w :
  connect_fault db ≠ None ∨ execute_fault db ≠ None ∨ fetchone_fault db ≠ None →
  fst (get_node_details db param w) = inr (mkResponse 200 placeholder).
Proof.
  intros H. rewrite get_node_details_unfold.
  destruct (connect_fault db); [reflexivity |].
  destruct (execute_fault db); [reflexivity |].
  destruct (fetchone_fault db); [reflexivity |].
  exfalso. destruct H as [H | [H | H]]; apply H; reflexivity.
Qed.

Lemma get_node_details_placeholder_on_failure_witness :
  fst (get_node_details Examples.unreachable "0xab" initial_world)
  = inr (mkResponse 200 placeholder).
Proof.
  apply (get_node_details_placeholder_on_failure Examples.unreachable "0xab"
           initial_world).
  left. discriminate.
Defined.

(** X13. The handler never makes up node data: the body of every
    response is the placeholder pair or the friendly_name and country of
    a stored record whose address equals the requested one up to ASCII
    casing and whose status is 'approved'. *)
Theorem get_node_details_body_is_stored db param w :
  ∃ resp,
    fst (get_node_details db param w) = inr resp
    ∧ (body resp = placeholder
       ∨ ∃ r, In r (pending_nodes db)
              ∧ LOWER (address r) = LOWER param
              ∧ status r = "approved"
              ∧ body resp = details_body (friendly_name r) (country r)).
Proof.
  rewrite get_node_details_unfold.
  destruct (connect_fault db); [by eauto |].
  destruct (execute_fault db); [by eauto |].
  destruct (fetchone_fault db); [by eauto |].
  destruct (first_match param (pending_nodes db)) as [[name ctry] |] eqn:Hfm;
    [| by eauto].
  destruct (first_match_some _ _ _ _ Hfm) as (r & Hin & [Haddr Hst] & <- & <-).
  eexists. split; [reflexivity |]. right. exists r. done.
Qed.

(** X14. The casing in which an address is stored does not matter:
    replacing a record by one that differs only in the ASCII casing of
    its address changes no response and no effect of the handler. *)
Theorem get_node_details_stored_casing_irrelevant cf ef ff rows1 r r' rows2 param w :
  LOWER (address r') = LOWER (address r) →
  friendly_name r' = friendly_name r →
  country r' = country r →
  status r' = status r →
  get_node_details (mkStore cf ef ff (rows1 ++ r' :: rows2)) param w
  = get_node_details (mkStore cf ef ff (rows1 ++ r :: rows2)) param w.
Proof.
  intros Ha Hn Hc Hs.
  assert (where_clause param r' = where_clause param r) as Hw
    by (unfold where_clause; rewrite Ha, Hs; reflexivity).
  assert (select_columns r' = select_columns r) as Hsel
    by (unfold select_columns; rewrite Hn, Hc; reflexivity).
  rewrite !get_node_details_unfold. unfold first_match. simpl.
  rewrite !List.filter_app, !List.map_app. simpl. rewrite Hw.
  destruct (where_clause param r); simpl; rewrite ?Hsel; reflexivity.
Qed.

Lemma get_node_details_stored_casing_irrelevant_witness :
  get_node_details
    (mkStore None None None ([] ++ mkRow "0XAB" "Alpha" "DE" "approved" :: []))
    "0xAb" initial_world
  = get_node_details (mkStore None None None ([] ++ Examples.alpha :: []))
      "0xAb" initial_world.
Proof.
  exact (get_node_details_stored_casing_irrelevant None None None []
           Examples.alpha (mkRow "0XAB" "Alpha" "DE" "approved") []
           "0xAb" initial_world eq_refl eq_refl eq_refl eq_refl).
Defined.

(** X15. A record stored under an address that differs from the
    requested one in more than ASCII casing has no influence: the handler
    does with it in the table what it does without it, whatever its
    status. *)
Theorem get_node_details_ignores_other_addresses cf ef ff rows1 r rows2 param w :
  LOWER (address r) ≠ LOWER param →
  get_node_details (mkStore cf ef ff (rows1 ++ r :: rows2)) param w
  = get_node_details (mkStore cf ef ff (rows1 ++ rows2)) param w.
Proof.
  intros Hne. apply get_node_details_same_query.
  apply filter_drops_rejected, where_clause_no_match. intros [H _]. done.
Qed.

Lemma get_node_details_ignores_other_addresses_witness :
  get_node_details
    (mkStore None None None
       ([] ++ mkRow "0xcd" "Gamma" "NL" "approved" :: [Examples.alpha]))
    "0xAB" initial_world
  = get_node_details (mkStore None None None ([] ++ [Examples.alpha]))
      "0xAB" initial_world.
Proof.
  apply (get_node_details_ignores_other_addresses None None None []
           (mkRow "0xcd" "Gamma" "NL" "approved") [Examples.alpha]
           "0xAB" initial_world).
  simpl. discriminate.
Defined.

(** X16. Once a stored approved record answers for an address, rows that
    come later in the table never change the answer: the handler does
    on the table with further rows appended what it does without
    them. *)
Theorem get_node_details_later_rows_irrelevant cf ef ff rows1 rows2 param w :
  (∃ r, In r rows1 ∧ LOWER (address r) = LOWER param ∧ status r = "approved") →
  get_node_details (mkStore cf ef ff (rows1 ++ rows2)) param w
  = get_node_details (mkStore cf ef ff rows1) param w.
Proof.
  intros (r & Hin & Hm). rewrite !get_node_details_unfold. simpl.
  rewrite (first_match_settled param rows1 rows2); [reflexivity |].
  exists r. split; done.
Qed.

Lemma get_node_details_later_rows_irrelevant_witness :
  get_node_details (mkStore None None None ([Examples.alpha] ++ [Examples.beta]))
    "0xAB" initial_world
  = get_node_details (mkStore None None None [Examples.alpha]) "0xAB" initial_world.
Proof.
  apply (get_node_details_later_rows_irrelevant None None None
           [Examples.alpha] [Examples.beta] "0xAB" initial_world).
  exists Examples.alpha. split; [left; reflexivity |]. split; reflexivity.
Defined.

(** X17. Lower-casing the address before the request changes nothing:
    SQLite's LOWER is idempotent, so the handler does for LOWER(address)
    what it does for the address as given. *)
Theorem get_node_details_lowercased_request db param w :
  LOWER (LOWER param) = LOWER param
  ∧ get_node_details db (LOWER param) w = get_node_details db param w.
Proof.
  split; [apply LOWER_idempotent |].
  destruct db as [cf ef ff rows]. apply get_node_details_same_query.
  unfold where_clause. rewrite LOWER_idempotent. reflexivity.
Qed.

End NodesExits.
